(** * python_example/main.py: one request to a local [cgpu serve]

    The script imports the OpenAI client class, builds a client, prints a
    progress line, issues one [client.responses.create] call and prints
    either the response text between two separators or an error message
    and a hint.

    The script is embedded as a program in a small monad that threads the
    outside world (the SDK, the network, the server) and records every
    interaction in a trace; Python exceptions are the monad's error
    channel.

    The SDK is a parameter.  Every point at which the script enters it may
    return or raise, and may change the world: the import on line 1, the
    constructor, the two attribute lookups [client.responses] and
    [.create], the call itself and the [output_text] property.  An event
    of the trace is written by the same step that hands the arguments to
    the SDK, so the trace holds what the SDK received.  [main] is the
    script from line 5 on, started in the world the import has left;
    [script] is the whole file.

    What the model takes for granted: [print] itself does not raise, and
    [str(e)] returns a string for every exception [e].  What the SDK does
    below [responses.create] (the HTTP body it builds, its own connection
    handling and retries) is not part of the script. *)

From stdpp Require Import base strings list gmap fin_maps.

(** String concatenation computes on literal prefixes. *)
#[local] Arguments String.append !_ _ : simpl nomatch.

(** ** Python values the script touches *)

(** The part of the built-in exception hierarchy that decides whether
    [except Exception] catches: [BaseException] has the direct subclasses
    [KeyboardInterrupt], [SystemExit], [GeneratorExit] and [Exception];
    a class is named when it derives from [Exception] (every error of the
    SDK does) or from [BaseException] beside it (as a task cancellation
    does). *)
Inductive py_class : Type :=
  | BaseException
  | KeyboardInterrupt
  | SystemExit
  | GeneratorExit
  | Exception
  | ExceptionSubclass (name : string)
  | BaseExceptionSubclass (name : string).

(** [issubclass(c, Exception)] *)
Definition issubclass_Exception (c : py_class) : bool :=
  match c with
  | Exception | ExceptionSubclass _ => true
  | BaseException | KeyboardInterrupt | SystemExit | GeneratorExit
  | BaseExceptionSubclass _ => false
  end.

(** An exception object: its class and what [str(e)] returns. *)
Record py_exc : Type := PyExc { exc_class : py_class; exc_str : string }.

(** A Python call either returns a value or raises. *)
Inductive result (A : Type) : Type :=
  | Return (a : A)
  | Raise (e : py_exc).
Arguments Return {A} a.
Arguments Raise {A} e.

(** Keyword arguments of a call: a dict from names to string values. *)
Abbreviation kwargs := (gmap string string).

(** [s * n] on strings *)
Fixpoint str_mul (s : string) (n : nat) : string :=
  match n with
  | O => EmptyString
  | S n' => s +:+ str_mul s n'
  end.

(** ** The outside world *)

(** What the script does not define.  [Resource] is what
    [client.responses] evaluates to and [Method] what [.create] evaluates
    to on it.  Each entry point reads and changes the world and returns or
    raises. *)
Record SDK (World Client Response : Type) : Type := MkSDK {
  Resource : Type;
  Method : Type;
  import_openai : World -> result unit * World;
  OpenAI : kwargs -> World -> result Client * World;
  get_responses : Client -> World -> result Resource * World;
  get_create : Resource -> World -> result Method * World;
  responses_create : Method -> kwargs -> World -> result Response * World;
  output_text : Response -> World -> result string * World
}.
Arguments Resource {World Client Response} _.
Arguments Method {World Client Response} _.
Arguments import_openai {World Client Response} _ _.
Arguments OpenAI {World Client Response} _ _ _.
Arguments get_responses {World Client Response} _ _ _.
Arguments get_create {World Client Response} _ _ _.
Arguments responses_create {World Client Response} _ _ _ _.
Arguments output_text {World Client Response} _ _ _.

(** Everything observable about a run, in order. *)
Inductive event : Type :=
  | EvImport
  | EvOpenAI (kw : kwargs)
  | EvGetattr (name : string)
  | EvCreate (kw : kwargs)
  | EvOutputText
  | EvPrint (s : string).

Record state (World : Type) : Type := MkState {
  world : World;
  trace : list event
}.
Arguments MkState {World} _ _.
Arguments world {World} _.
Arguments trace {World} _.

(** ** The interpreter monad *)

Definition Py (World A : Type) : Type := state World -> result A * state World.

#[global] Instance Py_ret {World} : MRet (Py World) :=
  fun A (a : A) s => (Return a, s).

#[global] Instance Py_bind {World} : MBind (Py World) :=
  fun A B (k : A -> Py World B) (m : Py World A) s =>
    match m s with
    | (Return a, s') => k a s'
    | (Raise e, s') => (Raise e, s')
    end.

(** [try: body  except Exception as e: handler e] *)
Definition try_except_Exception {World A}
    (body : Py World A) (handler : py_exc -> Py World A) : Py World A :=
  fun s =>
    match body s with
    | (Return a, s') => (Return a, s')
    | (Raise e, s') =>
        if issubclass_Exception (exc_class e) then handler e s'
        else (Raise e, s')
    end.

(** [print(x)]: one more line on standard output. *)
Definition print {World} (x : string) : Py World unit :=
  fun s => (Return tt, MkState (world s) (trace s ++ [EvPrint x])).

(** Entering the SDK: the step is logged, then run against the world. *)
Definition call {World A} (ev : event) (f : World -> result A * World) : Py World A :=
  fun s =>
    let '(r, w') := f (world s) in
    (r, MkState w' (trace s ++ [ev])).

(** The six entry points, as the interpreter reaches them.  What is
    logged is the argument that is handed over. *)
Section EntryPoints.
Context {World Client Response : Type}.
Variable sdk : SDK World Client Response.

(** [from openai import OpenAI] *)
Definition py_import : Py World unit :=
  call EvImport (import_openai sdk).

(** The constructor, called with the keyword arguments [kw]. *)
Definition py_OpenAI (kw : kwargs) : Py World Client :=
  call (EvOpenAI kw) (OpenAI sdk kw).

(** [client.responses] *)
Definition py_responses (client : Client) : Py World (Resource sdk) :=
  call (EvGetattr "responses") (get_responses sdk client).

(** [resource.create] *)
Definition py_create (resource : Resource sdk) : Py World (Method sdk) :=
  call (EvGetattr "create") (get_create sdk resource).

(** The method, called with the keyword arguments [kw]. *)
Definition py_call (method : Method sdk) (kw : kwargs) : Py World Response :=
  call (EvCreate kw) (responses_create sdk method kw).

(** [response.output_text] *)
Definition py_output_text (response : Response) : Py World string :=
  call EvOutputText (output_text sdk response).
End EntryPoints.

(** ** The script *)

Definition base_url : string := "http://localhost:8080/v1".
Definition api_key : string := "unused".

Definition client_kwargs : kwargs :=
  <["base_url" := base_url]> (<["api_key" := api_key]> ∅).

Definition request_kwargs : kwargs :=
  <["model" := "gemini-2.0-flash"]>
  (<["instructions" := "You are a coding assistant that talks like a pirate."]>
  (<["input" := "How do I check if a Python object is an instance of a class?"]> ∅)).

(** The newline character, written backslash-n in the source. *)
Definition NL : string := String (Ascii.ascii_of_nat 10) EmptyString.

Definition sending_line : string := "Sending request to cgpu serve...".
Definition header_line : string := NL +:+ "Response received:".
Definition separator : string := str_mul "-" 20.
Definition error_line (e : py_exc) : string := NL +:+ "Error: " +:+ exc_str e.
Definition hint_text : string :=
  "Make sure 'cgpu serve' is running in another terminal.".
Definition hint_line : string := NL +:+ hint_text.

Section Script.
Context {World Client Response : Type}.
Variable sdk : SDK World Client Response.

(** Lines 5 to 25. *)
Definition main : Py World unit :=
  client ← py_OpenAI sdk client_kwargs;
  try_except_Exception
    (print sending_line;;
     resource ← py_responses sdk client;
     method ← py_create sdk resource;
     response ← py_call sdk method request_kwargs;
     print header_line;;
     print separator;;
     text ← py_output_text sdk response;
     print text;;
     print separator)
    (fun e =>
     print (error_line e);;
     print hint_line).

(** The whole file: line 1, then the rest. *)
Definition script : Py World unit :=
  py_import sdk;;
  main.
End Script.

(** ** Observations on a run *)

(** The arguments of the [print] calls, in order. *)
Fixpoint prints (tr : list event) : list string :=
  match tr with
  | [] => []
  | EvPrint x :: tr' => x :: prints tr'
  | _ :: tr' => prints tr'
  end.

(** The keyword arguments of the [responses.create] calls, in order. *)
Fixpoint requests (tr : list event) : list kwargs :=
  match tr with
  | [] => []
  | EvCreate kw :: tr' => kw :: requests tr'
  | _ :: tr' => requests tr'
  end.

(** What standard output holds: [print] ends every argument with a newline. *)
Fixpoint stdout_of (xs : list string) : string :=
  match xs with
  | [] => EmptyString
  | x :: xs' => x +:+ NL +:+ stdout_of xs'
  end.

Definition stdout (tr : list event) : string := stdout_of (prints tr).

(** How the world answers the script, stage by stage.  [CallFails e]: the
    statement on line 12, [client.responses.create(...)], raised [e], in
    one of its two lookups or in the call. *)
Inductive behaviour : Type :=
  | ConstructionFails (e : py_exc)
  | CallFails (e : py_exc)
  | TextFails (e : py_exc)
  | Responds (text : string).

(** The same, by the entry point that raised. *)
Inductive path : Type :=
  | AtImport (e : py_exc)
  | AtConstructor (e : py_exc)
  | AtResponses (e : py_exc)
  | AtCreate (e : py_exc)
  | AtCall (e : py_exc)
  | AtOutputText (e : py_exc)
  | Completed (text : string).

Section Run.
Context {World Client Response : Type}.
Variable sdk : SDK World Client Response.

(** One execution of the script as a fresh process: [Return ()] is a
    normal exit, [Raise e] an exception that left the script uncaught. *)
Definition run (w : World) : result unit * state World :=
  main sdk (MkState w []).

Definition exit_of (w : World) : result unit := (run w).1.
Definition trace_of (w : World) : list event := trace (run w).2.

(** The same for the whole file. *)
Definition script_run (w : World) : result unit * state World :=
  script sdk (MkState w []).

Definition script_exit_of (w : World) : result unit := (script_run w).1.
Definition script_trace_of (w : World) : list event := trace (script_run w).2.

Definition path_at (w : World) : path :=
  match OpenAI sdk client_kwargs w with
  | (Raise e, _) => AtConstructor e
  | (Return c, w1) =>
      match get_responses sdk c w1 with
      | (Raise e, _) => AtResponses e
      | (Return rs, w2) =>
          match get_create sdk rs w2 with
          | (Raise e, _) => AtCreate e
          | (Return m, w3) =>
              match responses_create sdk m request_kwargs w3 with
              | (Raise e, _) => AtCall e
              | (Return r, w4) =>
                  match output_text sdk r w4 with
                  | (Raise e, _) => AtOutputText e
                  | (Return t, _) => Completed t
                  end
              end
          end
      end
  end.

Definition script_path_at (w : World) : path :=
  match import_openai sdk w with
  | (Raise e, _) => AtImport e
  | (Return _, w0) => path_at w0
  end.

Definition behaviour_at (w : World) : behaviour :=
  match OpenAI sdk client_kwargs w with
  | (Raise e, _) => ConstructionFails e
  | (Return c, w1) =>
      match get_responses sdk c w1 with
      | (Raise e, _) => CallFails e
      | (Return rs, w2) =>
          match get_create sdk rs w2 with
          | (Raise e, _) => CallFails e
          | (Return m, w3) =>
              match responses_create sdk m request_kwargs w3 with
              | (Raise e, _) => CallFails e
              | (Return r, w4) =>
                  match output_text sdk r w4 with
                  | (Raise e, _) => TextFails e
                  | (Return t, _) => Responds t
                  end
              end
          end
      end
  end.
End Run.

(** The exit status and the printed lines, as the script produces them
    for each behaviour. *)
Definition console_of (b : behaviour) : result unit * list string :=
  match b with
  | ConstructionFails e => (Raise e, [])
  | CallFails e =>
      if issubclass_Exception (exc_class e)
      then (Return tt, [sending_line; error_line e; hint_line])
      else (Raise e, [sending_line])
  | TextFails e =>
      if issubclass_Exception (exc_class e)
      then (Return tt, [sending_line; header_line; separator;
                        error_line e; hint_line])
      else (Raise e, [sending_line; header_line; separator])
  | Responds t =>
      (Return tt, [sending_line; header_line; separator; t; separator])
  end.

(** What the [except] clause leaves in the trace once it has caught [e],
    and what is missing when [e] is not an [Exception]. *)
Definition handler_events (e : py_exc) : list event :=
  if issubclass_Exception (exc_class e)
  then [EvPrint (error_line e); EvPrint hint_line]
  else [].

(** Every event of a run of lines 5 to 25, for each path. *)
Definition events_of (p : path) : list event :=
  match p with
  | AtImport _ => []
  | AtConstructor _ => [EvOpenAI client_kwargs]
  | AtResponses e =>
      [EvOpenAI client_kwargs; EvPrint sending_line; EvGetattr "responses"]
      ++ handler_events e
  | AtCreate e =>
      [EvOpenAI client_kwargs; EvPrint sending_line; EvGetattr "responses";
       EvGetattr "create"]
      ++ handler_events e
  | AtCall e =>
      [EvOpenAI client_kwargs; EvPrint sending_line; EvGetattr "responses";
       EvGetattr "create"; EvCreate request_kwargs]
      ++ handler_events e
  | AtOutputText e =>
      [EvOpenAI client_kwargs; EvPrint sending_line; EvGetattr "responses";
       EvGetattr "create"; EvCreate request_kwargs;
       EvPrint header_line; EvPrint separator; EvOutputText]
      ++ handler_events e
  | Completed t =>
      [EvOpenAI client_kwargs; EvPrint sending_line; EvGetattr "responses";
       EvGetattr "create"; EvCreate request_kwargs;
       EvPrint header_line; EvPrint separator; EvOutputText;
       EvPrint t; EvPrint separator]
  end.

(** The exception a path ends on, if any. *)
Definition raised (p : path) : option py_exc :=
  match p with
  | AtImport e | AtConstructor e | AtResponses e | AtCreate e | AtCall e
  | AtOutputText e => Some e
  | Completed _ => None
  end.

(** Whether the path ends inside the [try] block. *)
Definition in_try (p : path) : bool :=
  match p with
  | AtImport _ | AtConstructor _ => false
  | _ => true
  end.

(** The exit status of a path. *)
Definition exit_by (p : path) : result unit :=
  match raised p with
  | None => Return tt
  | Some e =>
      if in_try p && issubclass_Exception (exc_class e) then Return tt
      else Raise e
  end.

(** The behaviour a path of lines 5 to 25 shows. *)
Definition behaviour_of (p : path) : behaviour :=
  match p with
  | AtImport e | AtConstructor e => ConstructionFails e
  | AtResponses e | AtCreate e | AtCall e => CallFails e
  | AtOutputText e => TextFails e
  | Completed t => Responds t
  end.

(** The calls into the SDK among the events of a run, in order. *)
Fixpoint sdk_calls (tr : list event) : list event :=
  match tr with
  | [] => []
  | EvPrint _ :: tr' => sdk_calls tr'
  | ev :: tr' => ev :: sdk_calls tr'
  end.

(** ** Concrete worlds *)

Definition pirate_text : string :=
  "Arrr, ye scallywag, use isinstance() to check the type!".

Definition bad_request : py_exc :=
  PyExc (ExceptionSubclass "BadRequestError") "Error code: 400".

(** A mock server that answers the known request body with a fixed text;
    its world counts the requests it has served. *)
Definition pirate_server : SDK nat kwargs string :=
  {| Resource := unit; Method := unit;
     import_openai := fun n => (Return tt, n);
     OpenAI := fun kw n => (Return kw, n);
     get_responses := fun _ n => (Return tt, n);
     get_create := fun _ n => (Return tt, n);
     responses_create := fun _ kw n =>
       if decide (kw = request_kwargs) then (Return pirate_text, S n)
       else (Raise bad_request, S n);
     output_text := fun r n => (Return r, n) |}.

Definition connection_error : py_exc :=
  PyExc (ExceptionSubclass "APIConnectionError") "Connection error.".

(** Nothing listens on the endpoint: the call raises. *)
Definition no_server : SDK unit kwargs string :=
  {| Resource := unit; Method := unit;
     import_openai := fun u => (Return tt, u);
     OpenAI := fun kw u => (Return kw, u);
     get_responses := fun _ u => (Return tt, u);
     get_create := fun _ u => (Return tt, u);
     responses_create := fun _ _ u => (Raise connection_error, u);
     output_text := fun r u => (Return r, u) |}.

Definition proxies_error : py_exc :=
  PyExc (ExceptionSubclass "TypeError")
        "Client.__init__() got an unexpected keyword argument 'proxies'".

(** An installation in which the SDK's constructor itself raises. *)
Definition broken_install : SDK unit kwargs string :=
  {| Resource := unit; Method := unit;
     import_openai := fun u => (Return tt, u);
     OpenAI := fun _ u => (Raise proxies_error, u);
     get_responses := fun _ u => (Return tt, u);
     get_create := fun _ u => (Return tt, u);
     responses_create := fun _ _ u => (Return pirate_text, u);
     output_text := fun r u => (Return r, u) |}.

Definition ctrl_c : py_exc := PyExc KeyboardInterrupt EmptyString.

(** The user interrupts the process while the call is blocked. *)
Definition interrupted : SDK unit kwargs string :=
  {| Resource := unit; Method := unit;
     import_openai := fun u => (Return tt, u);
     OpenAI := fun kw u => (Return kw, u);
     get_responses := fun _ u => (Return tt, u);
     get_create := fun _ u => (Return tt, u);
     responses_create := fun _ _ u => (Raise ctrl_c, u);
     output_text := fun r u => (Return r, u) |}.

(** The console of the example scenario, character for character. *)
Definition example_console : string :=
"Sending request to cgpu serve...

Response received:
--------------------
Arrr, ye scallywag, use isinstance() to check the type!
--------------------
".

Definition attribute_error : py_exc :=
  PyExc (ExceptionSubclass "AttributeError")
        "'NoneType' object has no attribute 'output_text'".

(** The call returns an object whose [output_text] cannot be read. *)
Definition null_response : SDK unit kwargs unit :=
  {| Resource := unit; Method := unit;
     import_openai := fun u => (Return tt, u);
     OpenAI := fun kw u => (Return kw, u);
     get_responses := fun _ u => (Return tt, u);
     get_create := fun _ u => (Return tt, u);
     responses_create := fun _ _ u => (Return tt, u);
     output_text := fun _ u => (Raise attribute_error, u) |}.

Definition connection_reset : py_exc :=
  PyExc (ExceptionSubclass "ConnectionResetError") "Connection error.".

(** The connection drops while the call waits: another class of error
    whose message reads like the one of [no_server]. *)
Definition dropping_server : SDK unit kwargs string :=
  {| Resource := unit; Method := unit;
     import_openai := fun u => (Return tt, u);
     OpenAI := fun kw u => (Return kw, u);
     get_responses := fun _ u => (Return tt, u);
     get_create := fun _ u => (Return tt, u);
     responses_create := fun _ _ u => (Raise connection_reset, u);
     output_text := fun r u => (Return r, u) |}.

Definition no_responses : py_exc :=
  PyExc (ExceptionSubclass "AttributeError")
        "'OpenAI' object has no attribute 'responses'".

(** A release of the SDK whose client has no [responses] yet: the client
    is constructed, the lookup on line 12 raises. *)
Definition old_sdk : SDK unit kwargs string :=
  {| Resource := unit; Method := unit;
     import_openai := fun u => (Return tt, u);
     OpenAI := fun kw u => (Return kw, u);
     get_responses := fun _ u => (Raise no_responses, u);
     get_create := fun _ u => (Return tt, u);
     responses_create := fun _ _ u => (Return pirate_text, u);
     output_text := fun r u => (Return r, u) |}.

Definition no_module : py_exc :=
  PyExc (ExceptionSubclass "ModuleNotFoundError") "No module named 'openai'".

(** The package is not installed: the import on line 1 raises. *)
Definition not_installed : SDK unit kwargs string :=
  {| Resource := unit; Method := unit;
     import_openai := fun u => (Raise no_module, u);
     OpenAI := fun kw u => (Return kw, u);
     get_responses := fun _ u => (Return tt, u);
     get_create := fun _ u => (Return tt, u);
     responses_create := fun _ _ u => (Return pirate_text, u);
     output_text := fun r u => (Return r, u) |}.

(** ** What the SDK receives *)

(** An entry point that also notes, in the world, what it was handed. *)
Definition noting {World A} (ev : event) (f : World -> result A * World) :
    World * list event -> result A * (World * list event) :=
  fun '(w, log) =>
    let '(r, w') := f w in
    (r, (w', log ++ [ev])).

Section Recording.
Context {World Client Response : Type}.
Variable sdk : SDK World Client Response.

(** The same SDK, keeping its own log: every entry point notes that it
    was entered and, for the constructor and the call, the keyword
    arguments it received. *)
Definition recording : SDK (World * list event) Client Response :=
  {| Resource := Resource sdk;
     Method := Method sdk;
     import_openai := noting EvImport (import_openai sdk);
     OpenAI := fun kw => noting (EvOpenAI kw) (OpenAI sdk kw);
     get_responses := fun c => noting (EvGetattr "responses") (get_responses sdk c);
     get_create := fun rs => noting (EvGetattr "create") (get_create sdk rs);
     responses_create := fun m kw => noting (EvCreate kw) (responses_create sdk m kw);
     output_text := fun r => noting EvOutputText (output_text sdk r) |}.

(** What the SDK has noted when a run of the whole file ends. *)
Definition received (w : World) : list event :=
  (world (script_run recording (w, [])).2).2.
End Recording.

(** ** The ways through the script *)

Ltac script_step :=
  unfold run, script_run, script, main, py_import, py_OpenAI, py_responses,
    py_create, py_call, py_output_text, mbind, Py_bind, call, print,
    try_except_Exception; simpl.

Ltac by_class e :=
  unfold exit_by, events_of, handler_events; simpl;
  destruct (issubclass_Exception (exc_class e)); simpl; by repeat split.

Section Paths.
Context {World Client Response : Type}.
Variable sdk : SDK World Client Response.

(** From whatever trace [main] starts, it ends as it does from the empty
    one, with its events appended. *)
Lemma main_events (w : World) (tr : list event) :
  (main sdk (MkState w tr)).1 = exit_by (path_at sdk w) /\
  trace (main sdk (MkState w tr)).2 = tr ++ events_of (path_at sdk w).
Proof.
  unfold path_at. script_step.
  destruct (OpenAI sdk client_kwargs w) as [[c|e] w1]; simpl; [|done].
  destruct (get_responses sdk c w1) as [[rs|e] w2]; simpl.
  2: { rewrite <- !app_assoc. by_class e. }
  destruct (get_create sdk rs w2) as [[m|e] w3]; simpl.
  2: { rewrite <- !app_assoc. by_class e. }
  destruct (responses_create sdk m request_kwargs w3) as [[r|e] w4]; simpl.
  2: { rewrite <- !app_assoc. by_class e. }
  destruct (output_text sdk r w4) as [[t|e] w5]; simpl.
  2: { rewrite <- !app_assoc. by_class e. }
  by rewrite <- !app_assoc.
Qed.

Lemma run_events (w : World) :
  exit_of sdk w = exit_by (path_at sdk w) /\
  trace_of sdk w = events_of (path_at sdk w).
Proof. apply (main_events w []). Qed.

Lemma script_events (w : World) :
  script_exit_of sdk w = exit_by (script_path_at sdk w) /\
  script_trace_of sdk w = EvImport :: events_of (script_path_at sdk w).
Proof.
  unfold script_exit_of, script_trace_of, script_run, script, script_path_at,
    py_import, mbind, Py_bind, call. simpl.
  destruct (import_openai sdk w) as [[[]|e] w0]; [|done].
  apply (main_events w0 [EvImport]).
Qed.

Lemma behaviour_path (w : World) :
  behaviour_at sdk w = behaviour_of (path_at sdk w).
Proof.
  unfold behaviour_at, path_at.
  destruct (OpenAI sdk client_kwargs w) as [[c|e] w1]; [|done].
  destruct (get_responses sdk c w1) as [[rs|e] w2]; [|done].
  destruct (get_create sdk rs w2) as [[m|e] w3]; [|done].
  destruct (responses_create sdk m request_kwargs w3) as [[r|e] w4]; [|done].
  by destruct (output_text sdk r w4) as [[t|e] w5].
Qed.

Lemma path_at_not_import (w : World) e : path_at sdk w <> AtImport e.
Proof.
  unfold path_at.
  destruct (OpenAI sdk client_kwargs w) as [[c|?] w1]; [|done].
  destruct (get_responses sdk c w1) as [[rs|?] w2]; [|done].
  destruct (get_create sdk rs w2) as [[m|?] w3]; [|done].
  destruct (responses_create sdk m request_kwargs w3) as [[r|?] w4]; [|done].
  by destruct (output_text sdk r w4) as [[t|?] w5].
Qed.

Lemma path_at_constructor (w : World) e :
  path_at sdk w = AtConstructor e <-> (OpenAI sdk client_kwargs w).1 = Raise e.
Proof.
  unfold path_at.
  destruct (OpenAI sdk client_kwargs w) as [[c|e'] w1]; simpl;
    [|split; by intros [= ->]].
  destruct (get_responses sdk c w1) as [[rs|?] w2]; [|done].
  destruct (get_create sdk rs w2) as [[m|?] w3]; [|done].
  destruct (responses_create sdk m request_kwargs w3) as [[r|?] w4]; [|done].
  by destruct (output_text sdk r w4) as [[t|?] w5].
Qed.

Lemma run_console (w : World) :
  (exit_of sdk w, prints (trace_of sdk w)) = console_of (behaviour_at sdk w).
Proof.
  destruct (run_events w) as [-> ->]. rewrite behaviour_path.
  pose proof (path_at_not_import w) as Hn.
  destruct (path_at sdk w) as [e|e|e|e|e|e|t];
    [by destruct (Hn e) | try by_class e ..]; reflexivity.
Qed.
End Paths.

(** ** Strings on standard output *)

Lemma append_assoc (a b c : string) : (a +:+ b) +:+ c = a +:+ b +:+ c.
Proof. induction a as [|x a IH]; simpl; [done | by rewrite IH]. Qed.

Lemma stdout_of_app (xs ys : list string) :
  stdout_of (xs ++ ys) = stdout_of xs +:+ stdout_of ys.
Proof.
  induction xs as [|x xs IH]; simpl; [done|].
  by rewrite IH, !append_assoc.
Qed.


(** ** The trace and the SDK's own log *)

Section Received.
Context {World Client Response : Type}.
Variable sdk : SDK World Client Response.

Lemma received_events (w : World) :
  received sdk w = sdk_calls (EvImport :: events_of (script_path_at sdk w)).
Proof.
  unfold received, script_path_at, path_at. script_step. unfold noting.
  destruct (import_openai sdk w) as [[[]|e] w0]; simpl; [|done].
  destruct (OpenAI sdk client_kwargs w0) as [[c|e] w1]; simpl; [|done].
  destruct (get_responses sdk c w1) as [[rs|e] w2]; simpl.
  2: { unfold handler_events. by destruct (issubclass_Exception (exc_class e)). }
  destruct (get_create sdk rs w2) as [[m|e] w3]; simpl.
  2: { unfold handler_events. by destruct (issubclass_Exception (exc_class e)). }
  destruct (responses_create sdk m request_kwargs w3) as [[r|e] w4]; simpl.
  2: { unfold handler_events. by destruct (issubclass_Exception (exc_class e)). }
  destruct (output_text sdk r w4) as [[t|e] w5]; simpl; [done|].
  unfold handler_events. by destruct (issubclass_Exception (exc_class e)).
Qed.

(** The calls in the trace are the calls the SDK received, in order. *)
Lemma received_trace (w : World) :
  received sdk w = sdk_calls (script_trace_of sdk w).
Proof.
  rewrite received_events. by destruct (script_events sdk w) as [_ ->].
Qed.
End Received.

(** ** Reading a run off the world's behaviour *)

Section Behaviour.
Context {World Client Response : Type}.
Variable sdk : SDK World Client Response.
Variable w : World.

Lemma behaviour_construction_fails e :
  behaviour_at sdk w = ConstructionFails e -> path_at sdk w = AtConstructor e.
Proof.
  rewrite behaviour_path. pose proof (path_at_not_import sdk w) as Hn.
  destruct (path_at sdk w) as [e'|e'|e'|e'|e'|e'|t]; try done.
  - by destruct (Hn e').
  - by intros [= ->].
Qed.

Lemma behaviour_call_fails e :
  behaviour_at sdk w = CallFails e ->
  path_at sdk w = AtResponses e \/ path_at sdk w = AtCreate e \/
  path_at sdk w = AtCall e.
Proof.
  rewrite behaviour_path.
  destruct (path_at sdk w) as [e'|e'|e'|e'|e'|e'|t]; try done;
    intros [= ->]; auto.
Qed.

Lemma behaviour_text_fails e :
  behaviour_at sdk w = TextFails e -> path_at sdk w = AtOutputText e.
Proof.
  rewrite behaviour_path.
  destruct (path_at sdk w) as [e'|e'|e'|e'|e'|e'|t]; try done.
  by intros [= ->].
Qed.

Lemma behaviour_responds t :
  behaviour_at sdk w = Responds t -> path_at sdk w = Completed t.
Proof.
  rewrite behaviour_path.
  destruct (path_at sdk w) as [e'|e'|e'|e'|e'|e'|t']; try done.
  by intros [= ->].
Qed.

Lemma behaviour_constructed c :
  (OpenAI sdk client_kwargs w).1 = Return c ->
  forall e, behaviour_at sdk w <> ConstructionFails e.
Proof.
  intros Hi e Hb. apply behaviour_construction_fails, path_at_constructor in Hb.
  by rewrite Hb in Hi.
Qed.
End Behaviour.

(** ** The mock worlds, run *)

Example run_pirate_server :
  script_exit_of pirate_server 0 = Return tt /\
  script_trace_of pirate_server 0 =
    [EvImport; EvOpenAI client_kwargs;
     EvPrint "Sending request to cgpu serve...";
     EvGetattr "responses"; EvGetattr "create"; EvCreate request_kwargs;
     EvPrint (NL +:+ "Response received:");
     EvPrint "--------------------"; EvOutputText; EvPrint pirate_text;
     EvPrint "--------------------"].
Proof. by vm_compute. Qed.

Example run_no_server :
  script_exit_of no_server tt = Return tt /\
  script_trace_of no_server tt =
    [EvImport; EvOpenAI client_kwargs;
     EvPrint "Sending request to cgpu serve...";
     EvGetattr "responses"; EvGetattr "create"; EvCreate request_kwargs;
     EvPrint (NL +:+ "Error: Connection error."); EvPrint hint_line].
Proof. by vm_compute. Qed.

Example run_broken_install :
  script_exit_of broken_install tt = Raise proxies_error /\
  script_trace_of broken_install tt = [EvImport; EvOpenAI client_kwargs].
Proof. by vm_compute. Qed.

Example run_interrupted :
  script_exit_of interrupted tt = Raise ctrl_c /\
  script_trace_of interrupted tt =
    [EvImport; EvOpenAI client_kwargs;
     EvPrint "Sending request to cgpu serve...";
     EvGetattr "responses"; EvGetattr "create"; EvCreate request_kwargs].
Proof. by vm_compute. Qed.

Example run_old_sdk :
  script_exit_of old_sdk tt = Return tt /\
  script_trace_of old_sdk tt =
    [EvImport; EvOpenAI client_kwargs;
     EvPrint "Sending request to cgpu serve...";
     EvGetattr "responses";
     EvPrint (NL +:+ "Error: 'OpenAI' object has no attribute 'responses'");
     EvPrint hint_line] /\
  received old_sdk tt =
    [EvImport; EvOpenAI client_kwargs; EvGetattr "responses"].
Proof. by vm_compute. Qed.

Example run_not_installed :
  script_exit_of not_installed tt = Raise no_module /\
  script_trace_of not_installed tt = [EvImport] /\
  received not_installed tt = [EvImport].
Proof. by vm_compute. Qed.

(** ** Error handling *)

(** C1, as stated, fails: the client is constructed before the [try]
    statement, so an [Exception] raised by the constructor leaves the script
    uncaught and nothing is printed, neither the message nor the hint. *)
Lemma C1_construction_failure_escapes :
  behaviour_at broken_install tt = ConstructionFails proxies_error /\
  issubclass_Exception (exc_class proxies_error) = true /\
  exit_of broken_install tt = Raise proxies_error /\
  prints (trace_of broken_install tt) = [].
Proof. by vm_compute. Qed.

(** C1 (amended): any exception of class [Exception] raised during the network
    call is caught by the top-level handler; the run then prints the
    failure's message prefixed with "Error: " and, after it, the remediation
    hint, and exits without an uncaught exception. *)
Theorem C1_call_exception_caught
    {World Client Response} (sdk : SDK World Client Response) (w : World)
    (e : py_exc) :
  behaviour_at sdk w = CallFails e ->
  issubclass_Exception (exc_class e) = true ->
  exit_of sdk w = Return tt /\
  exists before,
    prints (trace_of sdk w) =
      before ++ [NL +:+ "Error: " +:+ exc_str e; NL +:+ hint_text].
Proof.
  intros Hb Hs. pose proof (run_console sdk w) as Hr.
  rewrite Hb in Hr; simpl in Hr; rewrite Hs in Hr.
  injection Hr as -> ->. split; [done|]. by exists [sending_line].
Qed.

Lemma C1_call_exception_caught_witness :
  behaviour_at no_server tt = CallFails connection_error /\
  issubclass_Exception (exc_class connection_error) = true /\
  exit_of no_server tt = Return tt /\
  exists before,
    prints (trace_of no_server tt) =
      before ++ [NL +:+ "Error: " +:+ "Connection error."; NL +:+ hint_text].
Proof.
  split; [reflexivity|]. split; [reflexivity|].
  apply (C1_call_exception_caught no_server tt connection_error); reflexivity.
Defined.

(** C4: when the network call fails (the SDK raises an [Exception], as for a
    refused connection), standard output holds the progress line, then a
    line "Error: " followed by the failure's message, then the remediation
    hint, and the run ends without an uncaught exception. *)
Theorem C4_call_failure_reported
    {World Client Response} (sdk : SDK World Client Response) (w : World)
    (e : py_exc) :
  behaviour_at sdk w = CallFails e ->
  issubclass_Exception (exc_class e) = true ->
  exit_of sdk w = Return tt /\
  stdout (trace_of sdk w) =
    (sending_line +:+ NL +:+ NL) +:+
    ("Error: " +:+ exc_str e) +:+ NL +:+ NL +:+ hint_text +:+ NL.
Proof.
  intros Hb Hs. pose proof (run_console sdk w) as Hr.
  rewrite Hb in Hr; simpl in Hr; rewrite Hs in Hr.
  injection Hr as -> Hp. split; [done|].
  unfold stdout. rewrite Hp. simpl. by rewrite ?append_assoc.
Qed.

Lemma C4_call_failure_reported_witness :
  behaviour_at no_server tt = CallFails connection_error /\
  issubclass_Exception (exc_class connection_error) = true /\
  exit_of no_server tt = Return tt /\
  stdout (trace_of no_server tt) =
    (sending_line +:+ NL +:+ NL) +:+
    ("Error: " +:+ "Connection error.") +:+ NL +:+ NL +:+ hint_text +:+ NL.
Proof.
  split; [reflexivity|]. split; [reflexivity|].
  apply (C4_call_failure_reported no_server tt connection_error); reflexivity.
Defined.

(** ** The success path *)

(** C2, as stated, fails: in the example scenario the console does not
    consist of the header, a separator, the text and a separator alone;
    the progress line comes first. *)
Lemma C2_progress_line_precedes_header :
  behaviour_at pirate_server 0 = Responds pirate_text /\
  prints (trace_of pirate_server 0) =
    sending_line :: [header_line; separator; pirate_text; separator] /\
  prints (trace_of pirate_server 0) <>
    [header_line; separator; pirate_text; separator] /\
  stdout (trace_of pirate_server 0) <>
    stdout_of [header_line; separator; pirate_text; separator].
Proof. vm_compute. by repeat split. Qed.

(** C2 (amended): in the example scenario, when the server returns the pirate
    text, the console output of a run is exactly the progress line
    "Sending request to cgpu serve...", then the header line (after a blank
    line), a separator, that exact text, and a closing separator. *)
Theorem C2_example_console
    {World Client Response} (sdk : SDK World Client Response) (w : World) :
  behaviour_at sdk w = Responds pirate_text ->
  exit_of sdk w = Return tt /\
  requests (trace_of sdk w) = [request_kwargs] /\
  prints (trace_of sdk w) =
    [sending_line; header_line; separator; pirate_text; separator] /\
  stdout (trace_of sdk w) = example_console.
Proof.
  intros Hb. pose proof (run_console sdk w) as Hr.
  destruct (run_events sdk w) as [_ Hq].
  rewrite (behaviour_responds _ _ _ Hb) in Hq.
  rewrite Hb in Hr; simpl in Hr. injection Hr as -> Hp.
  unfold stdout. rewrite Hp, Hq. by repeat split.
Qed.

Lemma C2_example_console_witness :
  behaviour_at pirate_server 0 = Responds pirate_text /\
  exit_of pirate_server 0 = Return tt /\
  requests (trace_of pirate_server 0) = [request_kwargs] /\
  prints (trace_of pirate_server 0) =
    [sending_line; header_line; separator; pirate_text; separator] /\
  stdout (trace_of pirate_server 0) = example_console.
Proof.
  split; [by vm_compute|].
  apply (C2_example_console pirate_server 0). by vm_compute.
Defined.

(** C3: when the server is reached and its response carries the output text
    [t], the printed output contains [t] with one separator line immediately
    before it and one separator line immediately after it. *)
Theorem C3_text_between_separators
    {World Client Response} (sdk : SDK World Client Response) (w : World)
    (t : string) :
  behaviour_at sdk w = Responds t ->
  exists before after,
    prints (trace_of sdk w) = before ++ [separator; t; separator] ++ after /\
    stdout (trace_of sdk w) =
      stdout_of before +:+
      (separator +:+ NL +:+ t +:+ NL +:+ separator +:+ NL) +:+
      stdout_of after.
Proof.
  intros Hb. pose proof (run_console sdk w) as Hr.
  rewrite Hb in Hr; simpl in Hr. injection Hr as _ Hp.
  exists [sending_line; header_line], []. split; [done|].
  unfold stdout. rewrite Hp.
  change [sending_line; header_line; separator; t; separator]
    with ([sending_line; header_line] ++ [separator; t; separator] ++ []).
  rewrite !stdout_of_app. reflexivity.
Qed.

Lemma C3_text_between_separators_witness :
  behaviour_at pirate_server 0 = Responds pirate_text /\
  exists before after,
    prints (trace_of pirate_server 0) =
      before ++ [separator; pirate_text; separator] ++ after /\
    stdout (trace_of pirate_server 0) =
      stdout_of before +:+
      (separator +:+ NL +:+ pirate_text +:+ NL +:+ separator +:+ NL) +:+
      stdout_of after.
Proof.
  split; [by vm_compute|].
  apply (C3_text_between_separators pirate_server 0). by vm_compute.
Defined.

(** ** The request *)

Lemma request_kwargs_dom :
  dom request_kwargs = ({["model"; "instructions"; "input"]} : gset string).
Proof.
  unfold request_kwargs. rewrite !dom_insert_L, dom_empty_L. set_solver.
Qed.

Lemma requests_received
    {World Client Response} (sdk : SDK World Client Response) (w : World) :
  requests (received sdk w) =
    match script_path_at sdk w with
    | AtImport _ | AtConstructor _ | AtResponses _ | AtCreate _ => []
    | AtCall _ | AtOutputText _ | Completed _ => [request_kwargs]
    end.
Proof.
  rewrite received_events.
  destruct (script_path_at sdk w) as [e|e|e|e|e|e|t]; try reflexivity;
    unfold events_of, handler_events;
    by destruct (issubclass_Exception (exc_class e)).
Qed.

(** C5: every request the SDK receives in a run carries exactly the three
    configured fields, [model], [instructions] and [input], each with its
    hardcoded value. *)
Theorem C5_request_fields
    {World Client Response} (sdk : SDK World Client Response) (w : World)
    (kw : kwargs) :
  kw ∈ requests (received sdk w) ->
  dom kw = ({["model"; "instructions"; "input"]} : gset string) /\
  size kw = 3 /\
  kw !! "model" = Some "gemini-2.0-flash" /\
  kw !! "instructions" =
    Some "You are a coding assistant that talks like a pirate." /\
  kw !! "input" =
    Some "How do I check if a Python object is an instance of a class?".
Proof.
  rewrite requests_received. intros Hin.
  assert (kw = request_kwargs) as ->.
  { destruct (script_path_at sdk w);
      first [by apply elem_of_nil in Hin
            | by apply list_elem_of_singleton in Hin]. }
  split; [apply request_kwargs_dom|]. by vm_compute.
Qed.

Lemma C5_request_fields_witness :
  request_kwargs ∈ requests (received pirate_server 0) /\
  dom request_kwargs = ({["model"; "instructions"; "input"]} : gset string) /\
  size request_kwargs = 3 /\
  request_kwargs !! "model" = Some "gemini-2.0-flash" /\
  request_kwargs !! "instructions" =
    Some "You are a coding assistant that talks like a pirate." /\
  request_kwargs !! "input" =
    Some "How do I check if a Python object is an instance of a class?".
Proof.
  assert (request_kwargs ∈ requests (received pirate_server 0)) as Hin.
  { rewrite requests_received.
    replace (script_path_at pirate_server 0) with (Completed pirate_text)
      by (by vm_compute).
    apply list_elem_of_singleton. reflexivity. }
  split; [exact Hin|].
  exact (C5_request_fields pirate_server 0 request_kwargs Hin).
Defined.

(** C8, as stated, fails: a run in which the constructor raises never
    reaches the call, so the call is issued zero times, not once. *)
Lemma C8_no_call_after_failed_construction :
  behaviour_at broken_install tt = ConstructionFails proxies_error /\
  requests (trace_of broken_install tt) = [] /\
  length (requests (trace_of broken_install tt)) <> 1 /\
  length (requests (received broken_install tt)) <> 1.
Proof. by vm_compute. Qed.

(** C8 (amended): in every run the script calls [client.responses.create]
    at most once and never a second time, whether the call returns or
    raises: the SDK receives the call exactly once when the import, the
    construction of the client and the two lookups of line 12 succeed, and
    not at all when one of them raises. *)
Theorem C8_call_issued_once
    {World Client Response} (sdk : SDK World Client Response) (w : World) :
  length (requests (received sdk w)) =
    match script_path_at sdk w with
    | AtImport _ | AtConstructor _ | AtResponses _ | AtCreate _ => 0
    | AtCall _ | AtOutputText _ | Completed _ => 1
    end.
Proof.
  rewrite requests_received. by destruct (script_path_at sdk w).
Qed.

(** ** All or nothing *)

Lemma error_line_not_header e : error_line e <> header_line.
Proof. discriminate. Qed.

Lemma error_line_not_separator e : error_line e <> separator.
Proof. discriminate. Qed.

(** C6: when the network call fails, nothing of the success path is
    written: no header, no separator, and the response's text is never read;
    the handler, when it runs, adds only the error message and the hint to
    the progress line. *)
Theorem C6_no_success_output_on_failure
    {World Client Response} (sdk : SDK World Client Response) (w : World)
    (e : py_exc) :
  behaviour_at sdk w = CallFails e ->
  (header_line ∉ prints (trace_of sdk w)) /\
  (separator ∉ prints (trace_of sdk w)) /\
  (EvOutputText ∉ trace_of sdk w) /\
  prints (trace_of sdk w) =
    sending_line ::
      (if issubclass_Exception (exc_class e)
       then [error_line e; hint_line] else []).
Proof.
  intros Hb. destruct (run_events sdk w) as [_ ->].
  pose proof (error_line_not_header e). pose proof (error_line_not_separator e).
  destruct (behaviour_call_fails _ _ _ Hb) as [->|[->| ->]];
    unfold events_of, handler_events;
    destruct (issubclass_Exception (exc_class e)); simpl;
    (split; [|split; [|split; [|reflexivity]]]);
    rewrite ?not_elem_of_cons, elem_of_nil; intuition (done || discriminate).
Qed.

Lemma C6_no_success_output_on_failure_witness :
  behaviour_at no_server tt = CallFails connection_error /\
  (header_line ∉ prints (trace_of no_server tt)) /\
  (separator ∉ prints (trace_of no_server tt)) /\
  (EvOutputText ∉ trace_of no_server tt) /\
  prints (trace_of no_server tt) =
    [sending_line; error_line connection_error; hint_line].
Proof.
  split; [reflexivity|].
  exact (C6_no_success_output_on_failure no_server tt connection_error eq_refl).
Defined.

(** ** Determinism *)

(** C7: two runs against the same behaviour of the server (the same
    response or the same failure both times) exit alike and print the same
    output, whatever else differs between the two worlds. *)
Theorem C7_same_behaviour_same_output
    {World Client Response} (sdk : SDK World Client Response) (w1 w2 : World) :
  behaviour_at sdk w1 = behaviour_at sdk w2 ->
  exit_of sdk w1 = exit_of sdk w2 /\
  prints (trace_of sdk w1) = prints (trace_of sdk w2) /\
  stdout (trace_of sdk w1) = stdout (trace_of sdk w2).
Proof.
  intros Hb.
  pose proof (run_console sdk w1) as H1. pose proof (run_console sdk w2) as H2.
  rewrite Hb, <- H2 in H1. injection H1 as He Hp.
  unfold stdout. by rewrite He, Hp.
Qed.

(** Two consecutive runs against the mock server: the second starts in the
    world the first one left. *)
Lemma C7_same_behaviour_same_output_witness :
  let after := world (run pirate_server 0).2 in
  after = 1 /\
  behaviour_at pirate_server 0 = behaviour_at pirate_server after /\
  exit_of pirate_server 0 = exit_of pirate_server after /\
  prints (trace_of pirate_server 0) = prints (trace_of pirate_server after) /\
  stdout (trace_of pirate_server 0) = stdout (trace_of pirate_server after).
Proof.
  intros after. split; [by vm_compute|]. split; [by vm_compute|].
  apply (C7_same_behaviour_same_output pirate_server 0 after). by vm_compute.
Defined.

(** ** The progress line and the reach of the handler *)

(** C9: once the client is constructed, "Sending request to cgpu serve..."
    is the first thing printed, whichever way the run goes on. *)
Theorem C9_progress_line_first
    {World Client Response} (sdk : SDK World Client Response) (w : World)
    (c : Client) :
  (OpenAI sdk client_kwargs w).1 = Return c ->
  exists rest,
    prints (trace_of sdk w) = "Sending request to cgpu serve..." :: rest /\
    stdout (trace_of sdk w) =
      "Sending request to cgpu serve..." +:+ NL +:+ stdout_of rest.
Proof.
  intros Hi. pose proof (run_console sdk w) as Hr.
  destruct (behaviour_at sdk w) as [e|e|e|t] eqn:Hb; simpl in Hr.
  - by destruct (behaviour_constructed sdk w c Hi e).
  - destruct (issubclass_Exception (exc_class e));
      injection Hr as _ Hp; unfold stdout; rewrite Hp; by eexists.
  - destruct (issubclass_Exception (exc_class e));
      injection Hr as _ Hp; unfold stdout; rewrite Hp; by eexists.
  - injection Hr as _ Hp; unfold stdout; rewrite Hp; by eexists.
Qed.

Lemma C9_progress_line_first_witness :
  (OpenAI no_server client_kwargs tt).1 = Return client_kwargs /\
  exists rest,
    prints (trace_of no_server tt) = "Sending request to cgpu serve..." :: rest /\
    stdout (trace_of no_server tt) =
      "Sending request to cgpu serve..." +:+ NL +:+ stdout_of rest.
Proof.
  split; [reflexivity|].
  exact (C9_progress_line_first no_server tt client_kwargs eq_refl).
Defined.

(** C10: the handler catches exactly the exceptions whose class is
    [Exception] or a subclass of it; an exception raised by the call whose
    class is not (such as [KeyboardInterrupt] or [SystemExit]) leaves the
    script uncaught, and the handler prints nothing. *)
Theorem C10_handler_catches_only_Exception
    {World Client Response} (sdk : SDK World Client Response) (w : World)
    (e : py_exc) :
  behaviour_at sdk w = CallFails e ->
  (issubclass_Exception (exc_class e) = true -> exit_of sdk w = Return tt) /\
  (issubclass_Exception (exc_class e) = false ->
     exit_of sdk w = Raise e /\
     prints (trace_of sdk w) = [sending_line]).
Proof.
  intros Hb. pose proof (run_console sdk w) as Hr.
  rewrite Hb in Hr; simpl in Hr.
  split; intros Hs; rewrite Hs in Hr; injection Hr as He Hp; auto.
Qed.

Lemma C10_handler_catches_only_Exception_witness :
  behaviour_at interrupted tt = CallFails ctrl_c /\
  issubclass_Exception (exc_class ctrl_c) = false /\
  exit_of interrupted tt = Raise ctrl_c /\
  prints (trace_of interrupted tt) = [sending_line].
Proof.
  split; [reflexivity|]. split; [reflexivity|].
  exact (proj2 (C10_handler_catches_only_Exception interrupted tt ctrl_c eq_refl)
               eq_refl).
Defined.

(** ** Beyond the call: the rest of the script *)

(** X1: when the call returns but reading [output_text] raises, the header
    and the opening separator are already on the console: an [Exception] is
    then reported after them by the handler and the run exits normally, any
    other exception leaves the script; the text and the closing separator
    are never printed, and the request was sent once. *)
Theorem X1_text_failure_after_header
    {World Client Response} (sdk : SDK World Client Response) (w : World)
    (e : py_exc) :
  behaviour_at sdk w = TextFails e ->
  exit_of sdk w =
    (if issubclass_Exception (exc_class e) then Return tt else Raise e) /\
  prints (trace_of sdk w) =
    [sending_line; header_line; separator] ++
    (if issubclass_Exception (exc_class e)
     then [error_line e; hint_line] else []) /\
  requests (trace_of sdk w) = [request_kwargs].
Proof.
  intros Hb. pose proof (run_console sdk w) as Hr.
  assert (requests (trace_of sdk w) = [request_kwargs]) as Hq.
  { destruct (run_events sdk w) as [_ ->].
    rewrite (behaviour_text_fails _ _ _ Hb). unfold events_of, handler_events.
    by destruct (issubclass_Exception (exc_class e)). }
  rewrite Hb in Hr; simpl in Hr. rewrite Hq.
  destruct (issubclass_Exception (exc_class e)); by injection Hr as -> ->.
Qed.

Lemma X1_text_failure_after_header_witness :
  behaviour_at null_response tt = TextFails attribute_error /\
  exit_of null_response tt = Return tt /\
  prints (trace_of null_response tt) =
    [sending_line; header_line; separator;
     error_line attribute_error; hint_line] /\
  requests (trace_of null_response tt) = [request_kwargs].
Proof.
  split; [reflexivity|].
  exact (X1_text_failure_after_header null_response tt attribute_error eq_refl).
Defined.

(** X6: the remediation hint is the last line printed exactly when an
    [Exception] raised inside the [try] block was caught; it never ends a
    successful run or a run that an exception left. *)
Theorem X6_hint_last_iff_caught
    {World Client Response} (sdk : SDK World Client Response) (w : World) :
  last (prints (trace_of sdk w)) = Some hint_line <->
  exists e,
    (behaviour_at sdk w = CallFails e \/ behaviour_at sdk w = TextFails e) /\
    issubclass_Exception (exc_class e) = true.
Proof.
  pose proof (run_console sdk w) as Hr.
  destruct (behaviour_at sdk w) as [e|e|e|t] eqn:Hb; simpl in Hr;
    try destruct (issubclass_Exception (exc_class e)) eqn:Hs;
    injection Hr as _ Hp; rewrite Hp; clear Hb Hp; simpl;
    (split;
     [ intros Hl; first [discriminate Hl | eauto 6]
     | intros (e' & Hor & Hs'); destruct Hor; congruence ]).
Qed.

Lemma X6_hint_last_iff_caught_witness :
  last (prints (trace_of no_server tt)) = Some hint_line.
Proof.
  apply (X6_hint_last_iff_caught no_server tt).
  exists connection_error. split; [left|]; reflexivity.
Defined.

(** X7: what a caught call failure puts on the console is its message and
    nothing else of it: two such runs print the same lines exactly when the
    two messages are equal, whatever the classes of the two exceptions. *)
Theorem X7_only_the_message_is_shown
    {World1 Client1 Response1 World2 Client2 Response2}
    (sdk1 : SDK World1 Client1 Response1) (w1 : World1)
    (sdk2 : SDK World2 Client2 Response2) (w2 : World2)
    (e1 e2 : py_exc) :
  behaviour_at sdk1 w1 = CallFails e1 ->
  behaviour_at sdk2 w2 = CallFails e2 ->
  issubclass_Exception (exc_class e1) = true ->
  issubclass_Exception (exc_class e2) = true ->
  prints (trace_of sdk1 w1) = prints (trace_of sdk2 w2) <->
  exc_str e1 = exc_str e2.
Proof.
  intros Hb1 Hb2 Hs1 Hs2.
  pose proof (run_console sdk1 w1) as Hr1. pose proof (run_console sdk2 w2) as Hr2.
  rewrite Hb1 in Hr1; rewrite Hb2 in Hr2; simpl in Hr1, Hr2.
  rewrite Hs1 in Hr1; rewrite Hs2 in Hr2.
  injection Hr1 as _ ->. injection Hr2 as _ ->. split.
  - by intros [= ?].
  - intros He. unfold error_line. by rewrite He.
Qed.

Lemma X7_only_the_message_is_shown_witness :
  exc_class connection_error <> exc_class connection_reset /\
  prints (trace_of no_server tt) = prints (trace_of dropping_server tt).
Proof.
  split; [discriminate|].
  apply (X7_only_the_message_is_shown no_server tt dropping_server tt
           connection_error connection_reset); reflexivity.
Defined.

(** X8: a run exits normally with a separator as its last line exactly
    when the response's text was read and printed. *)
Theorem X8_closing_separator_iff_responds
    {World Client Response} (sdk : SDK World Client Response) (w : World) :
  exit_of sdk w = Return tt /\
    last (prints (trace_of sdk w)) = Some separator <->
  exists t, behaviour_at sdk w = Responds t.
Proof.
  pose proof (run_console sdk w) as Hr.
  destruct (behaviour_at sdk w) as [e|e|e|t] eqn:Hb; simpl in Hr;
    try destruct (issubclass_Exception (exc_class e)) eqn:Hs;
    injection Hr as He Hp; rewrite He, Hp; clear Hb He Hp; simpl;
    (split;
     [ intros [He' Hl]; first [discriminate He' | discriminate Hl | eauto]
     | intros [t' Ht']; first [discriminate Ht' | by split] ]).
Qed.

Lemma X8_closing_separator_iff_responds_witness :
  exit_of pirate_server 0 = Return tt /\
  last (prints (trace_of pirate_server 0)) = Some separator.
Proof.
  apply (X8_closing_separator_iff_responds pirate_server 0).
  exists pirate_text. by vm_compute.
Defined.


(** ** The whole file, from the import on *)

Lemma client_kwargs_dom :
  dom client_kwargs = ({["base_url"; "api_key"]} : gset string).
Proof.
  unfold client_kwargs. rewrite !dom_insert_L, dom_empty_L. set_solver.
Qed.

Lemma script_path_imported
    {World Client Response} (sdk : SDK World Client Response) (w : World) :
  (import_openai sdk w).1 = Return tt ->
  forall e, script_path_at sdk w <> AtImport e.
Proof.
  unfold script_path_at.
  destruct (import_openai sdk w) as [[[]|e'] w0]; [|done].
  intros _ e. apply path_at_not_import.
Qed.

(** X2: a run of the file ends with an uncaught exception [e] exactly when
    the import or the constructor raised [e], or when a step inside the
    [try] block (a lookup of line 12, the call, the reading of
    [output_text]) raised [e] and [e] is not an [Exception]. *)
Theorem X2_uncaught_exactly_when
    {World Client Response} (sdk : SDK World Client Response) (w : World)
    (e : py_exc) :
  script_exit_of sdk w = Raise e <->
  script_path_at sdk w = AtImport e \/
  script_path_at sdk w = AtConstructor e \/
  ((script_path_at sdk w = AtResponses e \/
    script_path_at sdk w = AtCreate e \/
    script_path_at sdk w = AtCall e \/
    script_path_at sdk w = AtOutputText e) /\
   issubclass_Exception (exc_class e) = false).
Proof.
  destruct (script_events sdk w) as [-> _].
  destruct (script_path_at sdk w) as [e'|e'|e'|e'|e'|e'|t];
    unfold exit_by; simpl;
    try destruct (issubclass_Exception (exc_class e')) eqn:Hs;
    (split; [intros [= <-]; auto 10 | intuition congruence]).
Qed.

Lemma X2_uncaught_exactly_when_witness :
  script_exit_of not_installed tt = Raise no_module /\
  script_exit_of broken_install tt = Raise proxies_error /\
  script_exit_of interrupted tt = Raise ctrl_c.
Proof.
  split; [|split].
  - apply (X2_uncaught_exactly_when not_installed tt no_module).
    left. reflexivity.
  - apply (X2_uncaught_exactly_when broken_install tt proxies_error).
    right. left. reflexivity.
  - apply (X2_uncaught_exactly_when interrupted tt ctrl_c).
    right. right. split; [right; right; left|]; reflexivity.
Defined.

(** X3: in every run whose import succeeds, the first thing the SDK
    receives after the import is the construction of the client, with
    exactly the two settings [base_url], the local endpoint, and
    [api_key], the placeholder. *)
Theorem X3_client_constructed_first
    {World Client Response} (sdk : SDK World Client Response) (w : World) :
  (import_openai sdk w).1 = Return tt ->
  exists kw rest,
    received sdk w = EvImport :: EvOpenAI kw :: rest /\
    dom kw = ({["base_url"; "api_key"]} : gset string) /\
    kw !! "base_url" = Some "http://localhost:8080/v1" /\
    kw !! "api_key" = Some "unused".
Proof.
  intros Hi. pose proof (script_path_imported sdk w Hi) as Hn.
  rewrite received_events.
  destruct (script_path_at sdk w) as [e|e|e|e|e|e|t];
    [by destruct (Hn e) | ..];
    unfold events_of, handler_events;
    try destruct (issubclass_Exception (exc_class e)); simpl;
    eexists client_kwargs, _; (split; [reflexivity|]);
    (split; [apply client_kwargs_dom | by vm_compute]).
Qed.

Lemma X3_client_constructed_first_witness :
  (import_openai old_sdk tt).1 = Return tt /\
  exists kw rest,
    received old_sdk tt = EvImport :: EvOpenAI kw :: rest /\
    dom kw = ({["base_url"; "api_key"]} : gset string) /\
    kw !! "base_url" = Some "http://localhost:8080/v1" /\
    kw !! "api_key" = Some "unused".
Proof.
  split; [reflexivity|].
  exact (X3_client_constructed_first old_sdk tt eq_refl).
Defined.

(** X4: the script enters the SDK in a fixed order, the import, the
    constructor, the lookups of [responses] and of [create], the call and
    [output_text], each at most once, and stops at the first one that
    raises; the handler enters it no more. *)
Theorem X4_sdk_calls_in_order
    {World Client Response} (sdk : SDK World Client Response) (w : World) :
  received sdk w =
    take (match script_path_at sdk w with
          | AtImport _ => 1
          | AtConstructor _ => 2
          | AtResponses _ => 3
          | AtCreate _ => 4
          | AtCall _ => 5
          | AtOutputText _ | Completed _ => 6
          end)
         [EvImport; EvOpenAI client_kwargs; EvGetattr "responses";
          EvGetattr "create"; EvCreate request_kwargs; EvOutputText].
Proof.
  rewrite received_events.
  destruct (script_path_at sdk w) as [e|e|e|e|e|e|t]; try reflexivity;
    unfold events_of, handler_events;
    by destruct (issubclass_Exception (exc_class e)).
Qed.

(** X5: whenever the request is issued, the progress line has been printed
    before it: up to the call the run is the import, the construction of
    the client, the progress line, the two lookups and the call, in this
    order. *)
Theorem X5_progress_line_before_request
    {World Client Response} (sdk : SDK World Client Response) (w : World)
    (kw : kwargs) :
  EvCreate kw ∈ script_trace_of sdk w ->
  exists rest,
    script_trace_of sdk w =
      [EvImport; EvOpenAI client_kwargs; EvPrint sending_line;
       EvGetattr "responses"; EvGetattr "create"; EvCreate request_kwargs]
      ++ rest.
Proof.
  destruct (script_events sdk w) as [_ ->].
  destruct (script_path_at sdk w) as [e|e|e|e|e|e|t];
    unfold events_of, handler_events;
    try destruct (issubclass_Exception (exc_class e)); simpl;
    intros Hin; try (by eexists);
    exfalso; revert Hin;
    rewrite !elem_of_cons, elem_of_nil; intuition discriminate.
Qed.

Lemma X5_progress_line_before_request_witness :
  EvCreate request_kwargs ∈ script_trace_of interrupted tt /\
  exists rest,
    script_trace_of interrupted tt =
      [EvImport; EvOpenAI client_kwargs; EvPrint sending_line;
       EvGetattr "responses"; EvGetattr "create"; EvCreate request_kwargs]
      ++ rest.
Proof.
  assert (EvCreate request_kwargs ∈ script_trace_of interrupted tt) as Hin.
  { replace (script_trace_of interrupted tt)
      with [EvImport; EvOpenAI client_kwargs; EvPrint sending_line;
            EvGetattr "responses"; EvGetattr "create";
            EvCreate request_kwargs] by reflexivity.
    do 5 apply list_elem_of_further. apply list_elem_of_here. }
  split; [exact Hin|].
  exact (X5_progress_line_before_request interrupted tt request_kwargs Hin).
Defined.

(** X9: the console stays empty exactly when the import or the constructor
    raised: such a run prints neither the progress line nor the error
    message nor the hint, and every other run prints at least the progress
    line. *)
Theorem X9_silent_iff_outside_try
    {World Client Response} (sdk : SDK World Client Response) (w : World) :
  prints (script_trace_of sdk w) = [] <->
  exists e,
    script_path_at sdk w = AtImport e \/ script_path_at sdk w = AtConstructor e.
Proof.
  destruct (script_events sdk w) as [_ ->].
  destruct (script_path_at sdk w) as [e|e|e|e|e|e|t];
    unfold events_of, handler_events;
    try destruct (issubclass_Exception (exc_class e)); simpl;
    (split;
     [ intros Hl; first [discriminate Hl | eauto]
     | intros [e' [He'|He']]; first [discriminate He' | reflexivity] ]).
Qed.

Lemma X9_silent_iff_outside_try_witness :
  prints (script_trace_of not_installed tt) = [] /\
  prints (script_trace_of broken_install tt) = [].
Proof.
  split.
  - apply (X9_silent_iff_outside_try not_installed tt).
    exists no_module. left. reflexivity.
  - apply (X9_silent_iff_outside_try broken_install tt).
    exists proxies_error. right. reflexivity.
Defined.
